(** * check_positions_call.py: calldata encoder and JSON-RPC driver

    A shallow embedding of the script [check_positions_call.py], which
    encodes a call of [positionsByUser(address)], posts it as an
    [eth_call] and reports the answer.

    Python text ([str]) is modelled as [list ascii].  The 256 values of
    [ascii] are read as the code points U+0000 to U+00FF, on which
    [str.lower] and [str.strip] are defined below the way CPython
    defines them. *)

From Stdlib Require Import Ascii String ZArith NArith Bool Lia List.
From Stdlib Require Import DecimalString SpecFloat.
Import ListNotations.

Local Open Scope list_scope.

(** ** Text *)

Definition str := list ascii.

Notation "'T' s" := (list_ascii_of_string s%string)
  (at level 9, s at level 0, only parsing).

Definition chr (n : N) : ascii := ascii_of_N n.
Definition ord (c : ascii) : N := N_of_ascii c.

Definition between (lo hi n : N) : bool := ((lo <=? n) && (n <=? hi))%N.

(** [c.isupper()] for a code point below 256: A-Z, and the capital
    letters U+00C0..U+00DE without the multiplication sign U+00D7. *)
Definition isupper (c : ascii) : bool :=
  between 65 90 (ord c) || between 192 214 (ord c) || between 216 222 (ord c).

(** [c.lower()]: every capital letter of the range has its small letter
    32 places further. *)
Definition lower_char (c : ascii) : ascii :=
  if isupper c then chr (ord c + 32) else c.

(** [s.lower()] *)
Definition lower (s : str) : str := map lower_char s.

(** [c.isspace()] for a code point below 256: tab, line feed, vertical
    tab, form feed, carriage return, the four separators U+001C..U+001F,
    space, next line U+0085 and no-break space U+00A0. *)
Definition isspace (c : ascii) : bool :=
  between 9 13 (ord c) || between 28 32 (ord c)
  || (ord c =? 133)%N || (ord c =? 160)%N.

(** [s.lstrip()] *)
Fixpoint lstrip (s : str) : str :=
  match s with
  | c :: s' => if isspace c then lstrip s' else s
  | [] => []
  end.

(** [s.rstrip()] *)
Definition rstrip (s : str) : str := rev (lstrip (rev s)).

(** [s.strip()] *)
Definition strip (s : str) : str := rstrip (lstrip s).

(** [s.startswith(p)] *)
Fixpoint startswith (p s : str) : bool :=
  match p, s with
  | [], _ => true
  | a :: p', b :: s' => Ascii.eqb a b && startswith p' s'
  | _ :: _, [] => false
  end.

(** [c in alphabet] for a one-character [c]. *)
Definition char_in (c : ascii) (alphabet : str) : bool :=
  existsb (Ascii.eqb c) alphabet.

(** [s.rjust(width, fill)] *)
Definition rjust (width : nat) (fill : ascii) (s : str) : str :=
  repeat fill (width - length s) ++ s.

(** [s[-n:]] for [n] positive. *)
Definition last_chars (n : nat) (s : str) : str := skipn (length s - n) s.

(** [needle in haystack] for two strings. *)
Fixpoint contains (needle haystack : str) : bool :=
  startswith needle haystack
  || match haystack with
     | [] => false
     | _ :: h' => contains needle h'
     end.

(** ** Exceptions and results *)

Inductive exn : Type :=
| ValueError (msg : str)
| JSONDecodeError (msg : str)           (* a subclass of ValueError *)
| HTTPError (code : Z) (reason : str)   (* a subclass of URLError *)
| URLError (reason : str)
| TypeError (msg : str)
| AttributeError (msg : str)
| KeyError (key : str)
| SystemExit (code : Z)
| OtherException (name : str).

Inductive outcome (A : Type) : Type :=
| Return (a : A)
| Raise (e : exn).
Arguments Return {A} a.
Arguments Raise {A} e.

(** ** The calldata encoder *)

Definition POSITIONS_SELECTOR : str := T"0x919ddbf0".
Definition DEFAULT_RESOLVER : str := T"0x394Ce45678e0019c0045194a561E2bEd0FCc6Cf0".

Definition hex_digits : str := T"0123456789abcdef".

Definition build_calldata (address : str) : outcome str :=
  let clean := strip (lower address) in
  if negb (startswith T"0x" clean) then
    Raise (ValueError T"wallet address must start with 0x")
  else
    let clean := skipn 2 clean in
    if negb (length clean =? 40)%nat
       || existsb (fun c => negb (char_in c hex_digits)) clean then
      Raise (ValueError T"wallet address must be 40 hex chars (after 0x)")
    else
      Return (POSITIONS_SELECTOR ++ rjust 64 "0"%char clean).

(** ** JSON values

    The values [json.loads] produces and [json.dumps] consumes: [None],
    [bool], [int], [float], [str], [list], and [dict] with [str] keys.  A
    [dict] is kept as the list of its items in insertion order. *)

#[local] Set Warnings "-register-all".
Inductive json : Type :=
| JNull
| JBool (b : bool)
| JInt (z : Z)
| JFloat (f : spec_float)
| JStr (s : str)
| JList (l : list json)
| JDict (items : list (str * json)).

Definition str_eqb (a b : str) : bool :=
  if list_eq_dec Ascii.ascii_dec a b then true else false.

(** [d.get(key)] on the items of a [dict]; [None] when the key is absent. *)
Fixpoint dict_get (key : str) (items : list (str * json)) : option json :=
  match items with
  | [] => None
  | (k, v) :: rest => if str_eqb key k then Some v else dict_get key rest
  end.

(** [type(obj).__name__] *)
Definition type_name (obj : json) : str :=
  match obj with
  | JNull => T"NoneType"
  | JBool _ => T"bool"
  | JInt _ => T"int"
  | JFloat _ => T"float"
  | JStr _ => T"str"
  | JList _ => T"list"
  | JDict _ => T"dict"
  end.

(** [key in obj], as Python evaluates it on each kind of value. *)
Definition py_contains (key : str) (obj : json) : outcome bool :=
  match obj with
  | JDict items =>
      Return (match dict_get key items with Some _ => true | None => false end)
  | JList l =>
      Return (existsb (fun x => match x with
                                | JStr s => str_eqb key s
                                | _ => false
                                end) l)
  | JStr s => Return (contains key s)
  | _ => Raise (TypeError (T"argument of type '" ++ type_name obj
                         ++ T"' is not iterable"))
  end.

(** [obj[key]] for a [str] key. *)
Definition py_getitem (obj : json) (key : str) : outcome json :=
  match obj with
  | JDict items =>
      match dict_get key items with
      | Some v => Return v
      | None => Raise (KeyError key)
      end
  | JList _ => Raise (TypeError T"list indices must be integers or slices, not str")
  | JStr _ => Raise (TypeError T"string indices must be integers, not 'str'")
  | _ => Raise (TypeError (T"'" ++ type_name obj
                         ++ T"' object is not subscriptable"))
  end.

(** [obj.get(key)]: only a [dict] has the method. *)
Definition py_get (obj : json) (key : str) : outcome json :=
  match obj with
  | JDict items =>
      Return (match dict_get key items with Some v => v | None => JNull end)
  | _ => Raise (AttributeError (T"'" ++ type_name obj
                              ++ T"' object has no attribute 'get'"))
  end.

(** [isinstance(obj, str)] *)
Definition is_str (obj : json) : bool :=
  match obj with JStr _ => true | _ => false end.

(** ** The world the script runs in *)

Inductive ssl_context : Type := unverified_context.

(** What [urllib.request.urlopen] is called with. *)
Record request : Type := mk_request {
  req_url : str;
  req_data : str;
  req_headers : list (str * str);
  req_timeout : Z;
  req_context : option ssl_context
}.

Inductive parsed : Type :=
| Parsed (value : json)
| Malformed (msg : str).

(** The library and the network are parameters of the model:
    [json.dumps(obj)], [json.dumps(obj, indent=n)], [json.loads(text)];
    the answer of the endpoint to a request that [urlopen] is called
    with, that is the decoded body read from the response or the
    exception [urlopen], [read] or [decode] raises; the name of the
    program and the usage and help texts [argparse] makes of the
    parser; and [repr] of a string. *)
Record environment : Type := mk_environment {
  json_dumps : json -> str;
  json_dumps_indent : Z -> json -> str;
  json_loads : str -> parsed;
  endpoint_answer : request -> outcome str;
  prog : str;
  format_usage : str;
  format_help : str;
  py_repr : str -> str
}.

(** Each [print] adds the text it writes to its stream; every call of
    [urlopen] is recorded in [opened]. *)
Record world : Type := mk_world {
  stdout : list str;
  stderr : list str;
  opened : list request
}.

Definition world0 : world := mk_world [] [] [].

Definition M (A : Type) : Type := world -> outcome A * world.

Definition ret {A} (a : A) : M A := fun w => (Return a, w).

Definition raise {A} (e : exn) : M A := fun w => (Raise e, w).

Definition bind {A B} (m : M A) (k : A -> M B) : M B :=
  fun w => match m w with
           | (Return a, w') => k a w'
           | (Raise e, w') => (Raise e, w')
           end.

Definition lift {A} (r : outcome A) : M A := fun w => (r, w).

Notation "x <- m ;; k" := (bind m (fun x => k))
  (at level 61, m at next level, right associativity).
Notation "m ;;; k" := (bind m (fun _ => k))
  (at level 61, right associativity).

(** [try: body  except ...: handler]: [handler e] is [None] when no
    [except] clause matches [e]. *)
Definition try_except {A} (body : M A) (handler : exn -> option (M A)) : M A :=
  fun w => match body w with
           | (Raise e, w') =>
               match handler e with
               | Some h => h w'
               | None => (Raise e, w')
               end
           | r => r
           end.

Definition nl : str := [chr 10].

(** [print(a, b, ...)]: the arguments joined by a space, then a newline. *)
Fixpoint joined (items : list str) : str :=
  match items with
  | [] => []
  | [a] => a
  | a :: rest => a ++ T" " ++ joined rest
  end.

Definition print (items : list str) : M unit :=
  fun w => (Return tt,
            mk_world (stdout w ++ [joined items ++ nl]) (stderr w) (opened w)).

Definition eprint (items : list str) : M unit :=
  fun w => (Return tt,
            mk_world (stdout w) (stderr w ++ [joined items ++ nl]) (opened w)).

(** [sep.join(items)] *)
Fixpoint join (sep : str) (items : list str) : str :=
  match items with
  | [] => []
  | [a] => a
  | a :: rest => a ++ sep ++ join sep rest
  end.

(** ** The URL of a request

    [urllib.request.Request(url, ...)] unwraps the URL, takes the
    fragment off and looks for the type of the URL, the scheme before
    the first colon; it raises [ValueError] when there is none. *)

(** [s[-1:] == c] *)
Definition ends_with_char (c : ascii) (s : str) : bool :=
  match rev s with
  | x :: _ => Ascii.eqb x c
  | [] => false
  end.

(** [urllib.parse.unwrap(url)]: strip, drop the angle brackets around
    the URL, drop a leading [URL:]. *)
Definition unwrap (url : str) : str :=
  let url := strip url in
  let url := if startswith T"<" url && ends_with_char ">" url
             then strip (removelast (skipn 1 url))
             else url in
  if startswith T"URL:" url then strip (skipn 4 url) else url.

(** [s.partition(c)]: what is before and what is after the first [c]. *)
Fixpoint str_partition (c : ascii) (s : str) : option (str * str) :=
  match s with
  | [] => None
  | x :: s' =>
      if Ascii.eqb x c then Some ([], s')
      else match str_partition c s' with
           | Some (before, after) => Some (x :: before, after)
           | None => None
           end
  end.

(** [urllib.parse._splittag(url)]: the URL and its fragment, split at
    the last [#]. *)
Definition splittag (url : str) : str * option str :=
  match str_partition "#" (rev url) with
  | Some (tag, path) => (rev path, Some (rev tag))
  | None => (url, None)
  end.

(** The scheme and the rest, when the URL starts with one character or
    more that are neither slash nor colon, followed by a colon: the
    match of the pattern of [_splittype]. *)
Fixpoint scheme_and_rest (url : str) : option (str * str) :=
  match url with
  | [] => None
  | x :: url' =>
      if Ascii.eqb x ":" then Some ([], url')
      else if Ascii.eqb x "/" then None
      else match scheme_and_rest url' with
           | Some (scheme, rest) => Some (x :: scheme, rest)
           | None => None
           end
  end.

(** [urllib.parse._splittype(url)] *)
Definition splittype (url : str) : option str * str :=
  match scheme_and_rest url with
  | Some (x :: scheme, rest) => (Some (lower (x :: scheme)), rest)
  | _ => (None, url)
  end.

(** The type [Request] finds in a URL. *)
Definition url_type (url : str) : option str :=
  fst (splittype (fst (splittag (unwrap url)))).

Definition has_url_type (url : str) : bool :=
  match url_type url with Some _ => true | None => false end.

(** [Request.full_url]: the unwrapped URL, with its fragment when that
    is not empty. *)
Definition full_url (url : str) : str :=
  match splittag (unwrap url) with
  | (path, Some (x :: tag)) => path ++ T"#" ++ x :: tag
  | (path, _) => path
  end.

(** The object [urllib.request.Request(url, data=..., headers=...)]
    makes. *)
Record Request_object : Type := mk_Request_object {
  the_url : str;
  the_data : str;
  the_headers : list (str * str)
}.

Definition Request (env : environment) (url data : str)
    (headers : list (str * str)) : outcome Request_object :=
  match url_type url with
  | None => Raise (ValueError (T"unknown url type: " ++ py_repr env (full_url url)))
  | Some _ => Return (mk_Request_object url data headers)
  end.

(** [with urlopen(req, timeout=..., context=...) as resp:
    resp.read().decode("utf-8")] *)
Definition urlopen (env : environment) (req : Request_object) (timeout : Z)
    (context : option ssl_context) : M str :=
  fun w =>
    let r := mk_request (the_url req) (the_data req) (the_headers req)
               timeout context in
    (endpoint_answer env r,
     mk_world (stdout w) (stderr w) (opened w ++ [r])).

(** [str(n)] for an [int]. *)
Definition str_of_int (n : Z) : str :=
  list_ascii_of_string (NilZero.string_of_int (Z.to_int n)).

(** ** The transport *)

Definition post_json (env : environment) (url : str) (payload : json)
    (insecure : bool) : M json :=
  let data := json_dumps env payload in
  let context := if insecure then Some unverified_context else None in
  req <- lift (Request env url data
                 [(T"Content-Type", T"application/json")]) ;;
  body <- urlopen env req 60 context ;;
  match json_loads env body with
  | Parsed value => ret value
  | Malformed msg => raise (JSONDecodeError msg)
  end.

(** ** The command line and [main] *)

(** What the parser finds on a command line in which every option has
    its value: the value of each of the three options, [None] for an
    option left out; whether [--insecure] is there; whether [-h] or
    [--help] is there; and the arguments the parser does not know. *)
Record command_line : Type := mk_command_line_of {
  opt_rpc_url : option str;
  opt_wallet : option str;
  opt_resolver : option str;
  opt_insecure : bool;
  opt_help : bool;
  opt_unrecognized : list str
}.

(** A command line made of the four options of the script only. *)
Definition mk_command_line (u w r : option str) (i : bool) : command_line :=
  mk_command_line_of u w r i false [].

Record namespace : Type := mk_namespace {
  rpc_url : str;
  wallet : str;
  resolver : str;
  insecure : bool
}.

(** The required options that are left out, by their names. *)
Definition missing_required (argv : command_line) : list str :=
  (match opt_rpc_url argv with None => [T"--rpc-url"] | Some _ => [] end)
  ++ (match opt_wallet argv with None => [T"--wallet"] | Some _ => [] end).

(** What [parser.parse_args()] returns or leaves with: help leaves with
    status 0 as soon as it is met; then the two required options must be
    there and no argument may be unknown (status 2 otherwise);
    [--resolver] has a default. *)
Definition parse_args (argv : command_line) : outcome namespace :=
  if opt_help argv then Raise (SystemExit 0)
  else
    match opt_rpc_url argv, opt_wallet argv, opt_unrecognized argv with
    | Some u, Some w, [] =>
        Return (mk_namespace u w
                  (match opt_resolver argv with
                   | Some r => r
                   | None => DEFAULT_RESOLVER
                   end)
                  (opt_insecure argv))
    | _, _, _ => Raise (SystemExit 2)
    end.

(** [parser.error(message)]: the usage, then the message, on the error
    stream. *)
Definition parser_error (env : environment) (message : str) (w : world)
    : world :=
  mk_world (stdout w)
    (stderr w ++ [format_usage env; prog env ++ T": error: " ++ message ++ nl])
    (opened w).

(** What the parser writes before it leaves: the help on the output
    stream, or the usage and the error on the error stream. *)
Definition parser_output (env : environment) (argv : command_line)
    (w : world) : world :=
  if opt_help argv then
    mk_world (stdout w ++ [format_help env]) (stderr w) (opened w)
  else
    match missing_required argv, opt_unrecognized argv with
    | [], [] => w
    | [], extras =>
        parser_error env (T"unrecognized arguments: " ++ join T" " extras) w
    | names, _ =>
        parser_error env
          (T"the following arguments are required: " ++ join T", " names) w
    end.

(** [args = parser.parse_args()] *)
Definition run_parse_args (env : environment) (argv : command_line)
    : M namespace :=
  fun w => (parse_args argv, parser_output env argv w).

(** The arrow U+2192 that opens the four echo lines lies outside the
    range of [ascii]; it is kept as the three bytes of its UTF-8 form. *)
Definition arrow : str := [chr 226; chr 134; chr 146].

(** The request object of lines 84-95. *)
Definition envelope (to data : str) : json :=
  JDict [ (T"jsonrpc", JStr T"2.0");
          (T"id", JInt 1);
          (T"method", JStr T"eth_call");
          (T"params", JList [ JDict [ (T"to", JStr to); (T"data", JStr data) ];
                              JStr T"latest" ]) ].

(** [except ValueError as exc]: the message of [exc] when the clause
    matches. *)
Definition as_ValueError (e : exn) : option str :=
  match e with
  | ValueError msg | JSONDecodeError msg => Some msg
  | _ => None
  end.

(** A statement either falls through with a value or leaves the function
    by [return]. *)
Inductive flow (A : Type) : Type :=
| Next (a : A)
| Returned (code : Z).
Arguments Next {A} a.
Arguments Returned {A} code.

Definition main_args (env : environment) (args : namespace) : M Z :=
  step <- try_except
            (calldata <- lift (build_calldata (wallet args)) ;;
             ret (Next calldata))
            (fun e => match as_ValueError e with
                      | Some msg =>
                          Some (eprint [T"[error] " ++ msg] ;;; ret (Returned 1))
                      | None => None
                      end) ;;
  match step with
  | Returned code => ret code
  | Next calldata =>
      let payload := envelope (resolver args) calldata in
      print [arrow ++ T" RPC URL     :"; rpc_url args] ;;;
      print [arrow ++ T" Resolver    :"; resolver args] ;;;
      print [arrow ++ T" Wallet      :"; wallet args] ;;;
      print [arrow ++ T" Calldata    :"; calldata] ;;;
      step <- try_except
                (response <- post_json env (rpc_url args) payload (insecure args) ;;
                 ret (Next response))
                (fun e => match e with
                          | HTTPError code reason =>
                              Some (eprint [T"[http error] " ++ str_of_int code
                                            ++ T" " ++ reason] ;;;
                                    ret (Returned 1))
                          | URLError reason =>
                              Some (eprint [T"[network error] " ++ reason] ;;;
                                    ret (Returned 1))
                          | _ => None
                          end) ;;
      match step with
      | Returned code => ret code
      | Next response =>
          print [nl ++ T"RPC response:"] ;;;
          print [json_dumps_indent env 2 response] ;;;
          has_error <- lift (py_contains T"error" response) ;;
          (if has_error : bool then
             err <- lift (py_getitem response T"error") ;;
             data <- lift (py_get err T"data") ;;
             match data with
             | JStr d => print [nl ++ T"Decoded error data: " ++ d]
             | _ => ret tt
             end
           else ret tt) ;;;
          ret 0%Z
      end
  end.

Definition main (env : environment) (argv : command_line) : M Z :=
  args <- run_parse_args env argv ;;
  main_args env args.

(** The program: [raise SystemExit(main())]. *)
Definition script (env : environment) (argv : command_line) : M unit :=
  code <- main env argv ;;
  raise (SystemExit code).

(** ** Vocabulary of the specification *)

(** A hexadecimal character, in either case. *)
Definition is_hex (c : ascii) : bool := char_in c T"0123456789abcdefABCDEF".

(** The [0x] prefix, in either case. *)
Definition has_prefix_0x (s : str) : bool :=
  startswith T"0x" s || startswith T"0X" s.

(** What follows the two characters of the prefix. *)
Definition body (s : str) : str := skipn 2 s.

(** A valid wallet address: [0x], then exactly 40 hexadecimal
    characters. *)
Definition valid_address (s : str) : bool :=
  startswith T"0x" s && (length (body s) =? 40)%nat && forallb is_hex (body s).

(** The three ways a wallet string can be wrong: no prefix, a body that
    is not 40 long, a character of the body that is not hexadecimal. *)
Definition malformed (s : str) : bool :=
  negb (has_prefix_0x s)
  || negb (length (body s) =? 40)%nat
  || negb (forallb is_hex (body s)).

(** Two characters that are the same letter, in the same or in different
    case. *)
Definition same_letter (a b : ascii) : Prop :=
  a = b
  \/ (isupper a = true /\ b = lower_char a)
  \/ (isupper b = true /\ a = lower_char b).

(** Two strings that differ only in the case of their letters. *)
Definition differ_only_in_case (s t : str) : Prop := Forall2 same_letter s t.

(** What lines 42 to 48 come to for a request: the refusal of
    [Request], or the answer of the endpoint once [urlopen] is called. *)
Definition urlopen_read (env : environment) (req : request) : outcome str :=
  match url_type (req_url req) with
  | None => Raise (ValueError (T"unknown url type: "
                               ++ py_repr env (full_url (req_url req))))
  | Some _ => endpoint_answer env req
  end.

(** The request [main] is expected to post for a validated wallet. *)
Definition rpc_request (env : environment) (args : namespace)
    (calldata : str) : request :=
  mk_request (rpc_url args)
    (json_dumps env (envelope (resolver args) calldata))
    [(T"Content-Type", T"application/json")] 60
    (if insecure args then Some unverified_context else None).

(** The answer of the transport to that request, as [main] receives it. *)
Definition transport (env : environment) (args : namespace)
    (calldata : str) : outcome json :=
  fst (post_json env (rpc_url args) (envelope (resolver args) calldata)
         (insecure args) world0).

(** The string under [error] then [data] of a response, when the
    response is an object, its [error] is an object and the [data] of
    that is a string. *)
Definition error_data (response : json) : option str :=
  match response with
  | JDict items =>
      match dict_get T"error" items with
      | Some (JDict err) =>
          match dict_get T"data" err with
          | Some (JStr d) => Some d
          | _ => None
          end
      | _ => None
      end
  | _ => None
  end.

(** The four lines [main] echoes before it posts the request. *)
Definition echo_lines (args : namespace) (calldata : str) : list str :=
  [ joined [arrow ++ T" RPC URL     :"; rpc_url args] ++ nl;
    joined [arrow ++ T" Resolver    :"; resolver args] ++ nl;
    joined [arrow ++ T" Wallet      :"; wallet args] ++ nl;
    joined [arrow ++ T" Calldata    :"; calldata] ++ nl ].

(** The two lines that show a response, and the line that shows the
    data of an error. *)
Definition response_lines (env : environment) (response : json) : list str :=
  [ (nl ++ T"RPC response:") ++ nl; json_dumps_indent env 2 response ++ nl ].

Definition decoded_line (d : str) : str :=
  (nl ++ T"Decoded error data: " ++ d) ++ nl.

(** Lines 111 to 119 of [main]: what is done with a response. *)
Definition report (env : environment) (response : json) : M Z :=
  print [nl ++ T"RPC response:"] ;;;
  print [json_dumps_indent env 2 response] ;;;
  has_error <- lift (py_contains T"error" response) ;;
  (if has_error : bool then
     err <- lift (py_getitem response T"error") ;;
     data <- lift (py_get err T"data") ;;
     match data with
     | JStr d => print [nl ++ T"Decoded error data: " ++ d]
     | _ => ret tt
     end
   else ret tt) ;;;
  ret 0%Z.

(** The world after the echo and the call of [urlopen]. *)
Definition posted (env : environment) (args : namespace) (calldata : str)
    (w : world) : world :=
  mk_world (stdout w ++ echo_lines args calldata) (stderr w)
    (opened w ++ [rpc_request env args calldata]).

(** The world after the echo and [post_json]: the request is opened
    when [Request] takes the URL, and not otherwise. *)
Definition sent (env : environment) (args : namespace) (calldata : str)
    (w : world) : world :=
  mk_world (stdout w ++ echo_lines args calldata) (stderr w)
    (opened w
     ++ if has_url_type (rpc_url args)
        then [rpc_request env args calldata] else []).

Definition with_stderr (w : world) (line : str) : world :=
  mk_world (stdout w) (stderr w ++ [line]) (opened w).

(** A transport for tests: every request gets the same answer, and
    [json.loads] knows the bodies of a table. *)
Definition mock_env (answer : outcome str) (table : list (str * json))
    : environment :=
  mk_environment
    (fun _ => T"<request>")
    (fun _ _ => T"<response>")
    (fun text => match dict_get text table with
                 | Some value => Parsed value
                 | None => Malformed T"Expecting value"
                 end)
    (fun _ => answer)
    T"check_positions_call.py"
    (T"usage: check_positions_call.py [-h] --rpc-url RPC_URL --wallet WALLET"
     ++ T" [--resolver RESOLVER] [--insecure]" ++ nl)
    T"<help>"
    (fun s => T"'" ++ s ++ T"'").

(** A response that lines 114 to 118 of [main] go through without an
    exception: an object whose [error] is absent or an object, a list
    without the string [error], a string that does not contain it. *)
Definition reportable (response : json) : bool :=
  match response with
  | JDict items =>
      match dict_get T"error" items with
      | None | Some (JDict _) => true
      | Some _ => false
      end
  | JList l =>
      negb (existsb (fun x => match x with
                              | JStr s => str_eqb T"error" s
                              | _ => false
                              end) l)
  | JStr s => negb (contains T"error" s)
  | _ => false
  end.


(** ** Runs on concrete inputs *)

Definition wallet_one : str := T"0x0000000000000000000000000000000000000001".

Definition calldata_one : str :=
  T"0x919ddbf00000000000000000000000000000000000000000000000000000000000000001".

Definition argv_one : command_line :=
  mk_command_line (Some T"https://rpc.example") (Some wallet_one) None false.

Definition args_one : namespace :=
  mk_namespace T"https://rpc.example" wallet_one DEFAULT_RESOLVER false.

(** The answer of a reverted call, with the revert payload in [data]. *)
Definition reverted : json :=
  JDict [ (T"jsonrpc", JStr T"2.0");
          (T"id", JInt 1);
          (T"error", JDict [ (T"code", JInt 3);
                             (T"message", JStr T"execution reverted");
                             (T"data", JStr T"0xabc123") ]) ].

(** The answer of a server that reports no error by [error: null]. *)
Definition null_error : json :=
  JDict [ (T"id", JInt 1); (T"result", JStr T"0x"); (T"error", JNull) ].

(** An endpoint that answers with one of the two, or with a page that is
    not JSON. *)
Definition endpoint (text : str) : environment :=
  mock_env (Return text)
    [ (T"reverted", reverted); (T"null_error", null_error) ].

Example build_calldata_one :
  build_calldata T"0x0000000000000000000000000000000000000001"
  = Return T"0x919ddbf00000000000000000000000000000000000000000000000000000000000000001".
Proof. reflexivity. Qed.

Example build_calldata_mixed :
  build_calldata T"  0XAbCdEf0123456789aBcDeF0123456789AbCdEf01  "
  = Return T"0x919ddbf0000000000000000000000000abcdef0123456789abcdef0123456789abcdef01".
Proof. reflexivity. Qed.

Example build_calldata_short :
  build_calldata T"0x1234"
  = Raise (ValueError T"wallet address must be 40 hex chars (after 0x)").
Proof. reflexivity. Qed.

(** ** Characters *)

Ltac each_char c :=
  destruct c as [[] [] [] [] [] [] [] []]; vm_compute; try reflexivity;
  try discriminate; auto.

Lemma isspace_lower_char c : isspace (lower_char c) = isspace c.
Proof. each_char c. Qed.

Lemma lower_char_idem c : lower_char (lower_char c) = lower_char c.
Proof. each_char c. Qed.

Lemma hex_lower_char c : char_in (lower_char c) hex_digits = is_hex c.
Proof. each_char c. Qed.

Lemma hex_not_space c : char_in c hex_digits = true -> isspace c = false.
Proof. each_char c. Qed.

Lemma zero_lower_char c : Ascii.eqb "0" (lower_char c) = Ascii.eqb "0" c.
Proof. each_char c. Qed.

Lemma x_lower_char c :
  Ascii.eqb "x" (lower_char c) = Ascii.eqb "x" c || Ascii.eqb "X" c.
Proof. each_char c. Qed.

Lemma same_letter_lower a b : same_letter a b -> lower_char a = lower_char b.
Proof.
  intros [-> | [[_ ->] | [_ ->]]]; rewrite ?lower_char_idem; reflexivity.
Qed.

(** ** [lower] and [strip] *)

Lemma lower_app s t : lower (s ++ t) = lower s ++ lower t.
Proof. apply map_app. Qed.

Lemma lower_idem s : lower (lower s) = lower s.
Proof.
  unfold lower. rewrite map_map. apply map_ext. apply lower_char_idem.
Qed.

Lemma differ_only_in_case_lower s t :
  differ_only_in_case s t -> lower s = lower t.
Proof.
  induction 1 as [| a b s t Hab _ IH]; simpl.
  - reflexivity.
  - rewrite (same_letter_lower _ _ Hab), IH. reflexivity.
Qed.

Lemma lstrip_lower s : lstrip (lower s) = lower (lstrip s).
Proof.
  induction s as [| c s IH]; simpl; [reflexivity |].
  rewrite isspace_lower_char. destruct (isspace c); [exact IH | reflexivity].
Qed.

Lemma rstrip_lower s : rstrip (lower s) = lower (rstrip s).
Proof.
  unfold rstrip, lower. rewrite <- map_rev.
  fold (lower (rev s)). rewrite lstrip_lower. unfold lower.
  rewrite map_rev. reflexivity.
Qed.

Lemma strip_lower s : strip (lower s) = lower (strip s).
Proof. unfold strip. rewrite lstrip_lower, rstrip_lower. reflexivity. Qed.

Lemma lstrip_spaces w s :
  forallb isspace w = true -> lstrip (w ++ s) = lstrip s.
Proof.
  induction w as [| c w IH]; simpl; [reflexivity |].
  intros H. apply andb_true_iff in H as [-> H]. auto.
Qed.

Lemma lstrip_head c s : isspace c = false -> lstrip (c :: s) = c :: s.
Proof. intros H. simpl. rewrite H. reflexivity. Qed.

Lemma rstrip_spaces s w :
  forallb isspace w = true -> rstrip (s ++ w) = rstrip s.
Proof.
  intros H. unfold rstrip. rewrite rev_app_distr, lstrip_spaces; [reflexivity |].
  rewrite forallb_forall in *. intros c Hc. apply H. apply in_rev. exact Hc.
Qed.

Lemma rstrip_last s c : isspace c = false -> rstrip (s ++ [c]) = s ++ [c].
Proof.
  intros H. unfold rstrip. rewrite rev_app_distr. simpl. rewrite H.
  simpl. rewrite rev_involutive. reflexivity.
Qed.

(** A string that neither starts nor ends with whitespace is what
    [strip] leaves of it, whatever whitespace surrounds it. *)
Lemma strip_padded w1 w2 s :
  forallb isspace w1 = true -> forallb isspace w2 = true ->
  forallb (fun c => negb (isspace c)) s = true ->
  strip (w1 ++ s ++ w2) = s.
Proof.
  intros H1 H2 Hs. unfold strip. rewrite (lstrip_spaces _ _ H1).
  destruct s as [| c s]; simpl app.
  - rewrite <- (app_nil_r w2), (lstrip_spaces _ _ H2). reflexivity.
  - simpl in Hs. apply andb_true_iff in Hs as [Hc Hs].
    apply negb_true_iff in Hc. rewrite (lstrip_head _ _ Hc).
    change (c :: s ++ w2) with ((c :: s) ++ w2).
    rewrite (rstrip_spaces _ _ H2).
    destruct (exists_last (l := c :: s)) as [s' [d E]]; [discriminate |].
    rewrite E. apply rstrip_last.
    assert (Hall : forallb (fun c => negb (isspace c)) (c :: s) = true).
    { simpl. rewrite Hc, Hs. reflexivity. }
    rewrite E, forallb_app in Hall. apply andb_true_iff in Hall as [_ Hd].
    simpl in Hd. rewrite andb_true_r in Hd. apply negb_true_iff. exact Hd.
Qed.

(** ** The encoder, in the words of the specification *)

Lemma startswith_0x_lower s : startswith T"0x" (lower s) = has_prefix_0x s.
Proof.
  unfold has_prefix_0x.
  change (T"0x") with ["0"; "x"]%char. change (T"0X") with ["0"; "X"]%char.
  destruct s as [| a [| b s]]; cbn [startswith lower map].
  - reflexivity.
  - rewrite zero_lower_char. destruct (Ascii.eqb "0" a); reflexivity.
  - rewrite zero_lower_char, x_lower_char, !andb_true_r.
    destruct (Ascii.eqb "0" a); reflexivity.
Qed.

Lemma body_lower s : skipn 2 (lower s) = lower (body s).
Proof. unfold lower, body. apply skipn_map. Qed.

Lemma length_lower s : length (lower s) = length s.
Proof. apply length_map. Qed.

Lemma not_hex_lower s :
  existsb (fun c => negb (char_in c hex_digits)) (lower s)
  = negb (forallb is_hex s).
Proof.
  induction s as [| c s IH]; [reflexivity |].
  cbn [lower map existsb forallb]. fold (lower s).
  rewrite IH, hex_lower_char, negb_andb. reflexivity.
Qed.

(** [build_calldata] strips the string, then accepts it when it has the
    prefix and a body of 40 hexadecimal characters; the argument of the
    call is that body in lower case, right-justified in 64 zeros. *)
Lemma build_calldata_spec s :
  build_calldata s =
  if negb (has_prefix_0x (strip s)) then
    Raise (ValueError T"wallet address must start with 0x")
  else if negb (length (body (strip s)) =? 40)%nat
          || negb (forallb is_hex (body (strip s))) then
    Raise (ValueError T"wallet address must be 40 hex chars (after 0x)")
  else
    Return (POSITIONS_SELECTOR ++ rjust 64 "0"%char (lower (body (strip s)))).
Proof.
  unfold build_calldata. cbv zeta.
  rewrite strip_lower, startswith_0x_lower, body_lower, length_lower,
    not_hex_lower.
  reflexivity.
Qed.

Lemma build_calldata_raises s e :
  build_calldata s = Raise e -> exists msg, e = ValueError msg.
Proof.
  unfold build_calldata. cbv zeta.
  destruct (negb (startswith _ _)); [intros [= <-]; eauto |].
  destruct (_ || _); [intros [= <-]; eauto | discriminate].
Qed.

Lemma malformed_raises s :
  malformed (strip s) = true ->
  exists msg, build_calldata s = Raise (ValueError msg).
Proof.
  unfold malformed. rewrite build_calldata_spec. intros H.
  destruct (negb (has_prefix_0x (strip s))); [eauto |].
  simpl in H. rewrite H. eauto.
Qed.

Lemma is_hex_not_space c : is_hex c = true -> isspace c = false.
Proof. each_char c. Qed.

Lemma valid_address_no_space s :
  valid_address s = true -> forallb (fun c => negb (isspace c)) s = true.
Proof.
  unfold valid_address, body. intros H.
  apply andb_true_iff in H as [H Hhex]. apply andb_true_iff in H as [Hp _].
  change (T"0x") with ["0"; "x"]%char in Hp.
  destruct s as [| a [| b s]]; cbn [startswith] in Hp; try discriminate.
  - rewrite andb_false_r in Hp. discriminate.
  - rewrite andb_true_r in Hp. apply andb_true_iff in Hp as [Ha Hb].
    apply Ascii.eqb_eq in Ha, Hb. subst a b.
    cbn [skipn] in Hhex. cbn [forallb]. change (isspace "0") with false.
    change (isspace "x") with false. cbn [negb andb].
    rewrite forallb_forall in *. intros c Hc.
    rewrite (is_hex_not_space c (Hhex c Hc)). reflexivity.
Qed.

Lemma strip_valid_address s : valid_address s = true -> strip s = s.
Proof.
  intros H. rewrite <- (strip_padded [] [] s) at 2;
    auto using valid_address_no_space.
  simpl. rewrite app_nil_r. reflexivity.
Qed.

Lemma valid_address_parts s :
  valid_address s = true ->
  has_prefix_0x s = true /\ length (body s) = 40
  /\ forallb is_hex (body s) = true.
Proof.
  unfold valid_address, has_prefix_0x. intros H.
  apply andb_true_iff in H as [H Hhex]. apply andb_true_iff in H as [Hp Hl].
  rewrite Hp. apply Nat.eqb_eq in Hl. auto.
Qed.

Lemma build_calldata_valid s :
  valid_address s = true ->
  build_calldata s
  = Return (POSITIONS_SELECTOR ++ rjust 64 "0"%char (lower (body s))).
Proof.
  intros H. rewrite build_calldata_spec, (strip_valid_address s H).
  destruct (valid_address_parts s H) as (-> & Hl & ->).
  rewrite Hl. reflexivity.
Qed.

(** ** Claims on the encoder *)

(** C1: for every valid wallet address [A] ([0x] then exactly 40
    hexadecimal characters, in any case) [build_calldata A] returns a
    string of length 74 that starts with [0x919ddbf0] and whose last 64
    characters are the body of [A] in lower case behind 24 zeros; for the
    address one it is the selector, 63 zeros and [1]. *)
Theorem build_calldata_valid_address (A : str) :
  valid_address A = true ->
  exists out,
    build_calldata A = Return out
    /\ length out = 74
    /\ startswith T"0x919ddbf0" out = true
    /\ last_chars 64 out = repeat "0"%char 24 ++ lower (body A)
    /\ length (last_chars 64 out) = 64
    /\ (A = T"0x0000000000000000000000000000000000000001" ->
        out = T"0x919ddbf0" ++ repeat "0"%char 63 ++ T"1").
Proof.
  intros H. rewrite (build_calldata_valid A H).
  destruct (valid_address_parts A H) as (_ & Hl & _).
  eexists. split; [reflexivity |].
  assert (Hr : rjust 64 "0"%char (lower (body A))
               = repeat "0"%char 24 ++ lower (body A)).
  { unfold rjust. rewrite length_lower, Hl. reflexivity. }
  rewrite Hr.
  assert (Hlen : length (POSITIONS_SELECTOR
                         ++ repeat "0"%char 24 ++ lower (body A)) = 74).
  { rewrite !length_app, repeat_length, length_lower, Hl. reflexivity. }
  split; [exact Hlen |]. split; [reflexivity |].
  unfold last_chars. rewrite Hlen. split; [reflexivity |].
  split.
  - change (skipn (74 - 64) (POSITIONS_SELECTOR ++ ?x)) with x.
    rewrite length_app, repeat_length, length_lower, Hl. reflexivity.
  - intros ->. reflexivity.
Qed.

Lemma build_calldata_valid_address_witness :
  valid_address wallet_one = true
  /\ exists out,
       build_calldata wallet_one = Return out
       /\ length out = 74
       /\ startswith T"0x919ddbf0" out = true
       /\ last_chars 64 out = repeat "0"%char 24 ++ lower (body wallet_one)
       /\ length (last_chars 64 out) = 64
       /\ (wallet_one = T"0x0000000000000000000000000000000000000001" ->
           out = T"0x919ddbf0" ++ repeat "0"%char 63 ++ T"1").
Proof.
  split; [reflexivity |].
  apply (build_calldata_valid_address wallet_one). reflexivity.
Defined.

(** C2: [build_calldata] is a function of the lower-cased string alone:
    two strings that differ only in the case of their letters get the
    same result, be it the calldata or the error, and evaluating the
    encoder leaves the world as it is. *)
Theorem build_calldata_case_insensitive (s t : str) :
  differ_only_in_case s t ->
  build_calldata s = build_calldata t
  /\ forall w : world, snd (lift (build_calldata s) w) = w.
Proof.
  intros H. split; [| reflexivity].
  unfold build_calldata. rewrite (differ_only_in_case_lower s t H).
  reflexivity.
Qed.

Lemma differ_0xABCD :
  differ_only_in_case T"0xABCDEF0123456789ABCDEF0123456789ABCDEF01"
                      T"0xabcdef0123456789abcdef0123456789abcdef01".
Proof.
  repeat (constructor;
          [first [left; reflexivity
                 | right; left; split; reflexivity] |]).
  constructor.
Defined.

Lemma build_calldata_case_insensitive_witness :
  build_calldata T"0xABCDEF0123456789ABCDEF0123456789ABCDEF01"
  = build_calldata T"0xabcdef0123456789abcdef0123456789abcdef01"
  /\ forall w : world,
       snd (lift (build_calldata
                    T"0xABCDEF0123456789ABCDEF0123456789ABCDEF01") w) = w.
Proof.
  apply (build_calldata_case_insensitive _ _ differ_0xABCD).
Defined.

(** C9: whitespace around a valid address is stripped before the
    address is checked: the padded string is accepted and encodes to the
    calldata of the address itself. *)
Theorem build_calldata_strips_whitespace (w1 A w2 : str) :
  valid_address A = true ->
  forallb isspace w1 = true ->
  forallb isspace w2 = true ->
  build_calldata (w1 ++ A ++ w2) = build_calldata A
  /\ exists out, build_calldata A = Return out.
Proof.
  intros HA H1 H2. split.
  - rewrite (build_calldata_spec (w1 ++ A ++ w2)), (build_calldata_spec A).
    rewrite (strip_padded w1 w2 A H1 H2 (valid_address_no_space A HA)).
    rewrite (strip_valid_address A HA). reflexivity.
  - rewrite (build_calldata_valid A HA). eauto.
Qed.

Lemma build_calldata_strips_whitespace_witness :
  build_calldata ([chr 9; chr 32]
                  ++ T"0x00000000000000000000000000000000000000fF"
                  ++ [chr 13; chr 10])
  = build_calldata T"0x00000000000000000000000000000000000000fF"
  /\ exists out,
       build_calldata T"0x00000000000000000000000000000000000000fF"
       = Return out.
Proof.
  apply (build_calldata_strips_whitespace [chr 9; chr 32]
           T"0x00000000000000000000000000000000000000fF" [chr 13; chr 10]);
    reflexivity.
Defined.

(** C7, as the specification has it: the body of [DEFAULT_RESOLVER]
    would be 42 characters long.  It is not. *)
Lemma DEFAULT_RESOLVER_body_not_42 :
  length (body DEFAULT_RESOLVER) <> 42.
Proof. vm_compute. discriminate. Qed.

(** C7, amended: [DEFAULT_RESOLVER] is 42 characters long with its [0x]
    prefix; the body after the prefix is exactly 40 hexadecimal
    characters, the size of a 20-byte address. *)
Theorem DEFAULT_RESOLVER_well_sized :
  length DEFAULT_RESOLVER = 42
  /\ startswith T"0x" DEFAULT_RESOLVER = true
  /\ length (body DEFAULT_RESOLVER) = 40
  /\ forallb is_hex (body DEFAULT_RESOLVER) = true
  /\ valid_address DEFAULT_RESOLVER = true.
Proof. repeat split; reflexivity. Qed.

(** ** [main], step by step *)

Lemma urlopen_read_answer env req r :
  urlopen_read env req = r ->
  (forall msg, r <> Raise (ValueError msg)) ->
  has_url_type (req_url req) = true /\ endpoint_answer env req = r.
Proof.
  unfold urlopen_read, has_url_type.
  destruct (url_type (req_url req)); [auto |].
  intros <- H. exfalso. exact (H _ eq_refl).
Qed.

Lemma transport_eq env args c :
  transport env args c =
  match urlopen_read env (rpc_request env args c) with
  | Return text =>
      match json_loads env text with
      | Parsed value => Return value
      | Malformed msg => Raise (JSONDecodeError msg)
      end
  | Raise e => Raise e
  end.
Proof.
  unfold transport, post_json, bind, lift, Request, urlopen, urlopen_read,
    rpc_request.
  cbn [req_url]. destruct (url_type (rpc_url args)); [| reflexivity].
  cbn [the_url the_data the_headers fst].
  destruct (endpoint_answer env _) as [text | e]; [| reflexivity].
  destruct (json_loads env text); reflexivity.
Qed.

Lemma post_json_run env args c w :
  post_json env (rpc_url args) (envelope (resolver args) c) (insecure args) w
  = (transport env args c,
     mk_world (stdout w) (stderr w)
       (opened w
        ++ if has_url_type (rpc_url args)
           then [rpc_request env args c] else [])).
Proof.
  unfold transport, post_json, bind, lift, Request, urlopen, has_url_type,
    rpc_request, ret, raise.
  destruct (url_type (rpc_url args)).
  - cbn [the_url the_data the_headers fst stdout stderr opened].
    destruct (endpoint_answer env _) as [text | e]; [| reflexivity].
    destruct (json_loads env text); reflexivity.
  - cbn [fst]. rewrite app_nil_r. destruct w; reflexivity.
Qed.

Lemma sent_posted env args c w :
  has_url_type (rpc_url args) = true -> sent env args c w = posted env args c w.
Proof. intros H. unfold sent, posted. rewrite H. reflexivity. Qed.

Lemma main_args_invalid env args w msg :
  build_calldata (wallet args) = Raise (ValueError msg) ->
  main_args env args w
  = (Return 1%Z, with_stderr w ((T"[error] " ++ msg) ++ nl)).
Proof.
  intros H. unfold main_args, bind, try_except, lift. rewrite H. reflexivity.
Qed.

Lemma main_args_valid env args w c :
  build_calldata (wallet args) = Return c ->
  main_args env args w =
  match transport env args c with
  | Return response => report env response (sent env args c w)
  | Raise (HTTPError code reason) =>
      (Return 1%Z,
       with_stderr (sent env args c w)
         ((T"[http error] " ++ str_of_int code ++ T" " ++ reason) ++ nl))
  | Raise (URLError reason) =>
      (Return 1%Z,
       with_stderr (sent env args c w)
         ((T"[network error] " ++ reason) ++ nl))
  | Raise e => (Raise e, sent env args c w)
  end.
Proof.
  intros H. unfold main_args, bind at 1, try_except at 1, bind at 1, lift.
  rewrite H. cbn [ret].
  unfold bind, print, try_except. cbn [stdout stderr opened].
  rewrite post_json_run. cbn [stdout stderr opened].
  unfold sent, echo_lines. rewrite <- !app_assoc. cbn [app].
  destruct (transport env args c) as [response | e].
  - reflexivity.
  - destruct e; reflexivity.
Qed.

(** With a response in hand the URL had a type and the request was
    opened. *)
Lemma transport_typed env args c r :
  transport env args c = r ->
  (forall msg, r <> Raise (ValueError msg)) ->
  has_url_type (rpc_url args) = true.
Proof.
  rewrite transport_eq. intros Hr Hv.
  destruct (urlopen_read env (rpc_request env args c)) as [text | e] eqn:Hu.
  - exact (proj1 (urlopen_read_answer _ _ _ Hu ltac:(discriminate))).
  - subst r. refine (proj1 (urlopen_read_answer _ _ _ Hu _)).
    intros msg [= ->]. exact (Hv msg eq_refl).
Qed.

Lemma report_run env response w :
  exists r,
    report env response w
    = (r, mk_world
            (stdout w ++ response_lines env response
             ++ match error_data response with
                | Some d => [decoded_line d]
                | None => []
                end)
            (stderr w) (opened w))
    /\ (r = Return 0%Z \/ exists e, r = Raise e)
    /\ (forall items,
          response = JDict items ->
          match dict_get T"error" items with
          | None | Some (JDict _) => r = Return 0%Z
          | Some _ => exists e, r = Raise e
          end).
Proof.
  unfold report, bind, print, lift, ret, response_lines, decoded_line.
  cbn [stdout stderr opened joined]. rewrite <- !app_assoc. cbn [app].
  destruct response as [| b | z | f | s | l | items];
    cbn [py_contains error_data].
  1-4: eexists; split; [reflexivity |]; split; [eauto | discriminate].
  - destruct (contains _ s); cbn [py_getitem];
      eexists; (split; [reflexivity |]); (split; [eauto | discriminate]).
  - destruct (existsb _ l); cbn [py_getitem];
      eexists; (split; [reflexivity |]); (split; [eauto | discriminate]).
  - cbn [py_getitem].
    destruct (dict_get _ items) as [err |] eqn:E.
    + destruct err as [| b | z | f | s | l | err]; cbn [py_get];
        try (eexists; split; [reflexivity |]; split;
             [eauto | intros ? [= <-]; rewrite E; eauto]).
      destruct (dict_get _ err) as [[| b | z | f | d | l | d] |];
        cbn [stdout stderr opened]; rewrite <- ?app_assoc; cbn [app];
        eexists; (split; [reflexivity |]);
          (split; [eauto | intros ? [= <-]; rewrite E; reflexivity]).
    + eexists; split; [reflexivity |]; split;
        [eauto | intros ? [= <-]; rewrite E; reflexivity].
Qed.

Lemma parse_args_returns argv args :
  parse_args argv = Return args ->
  opt_help argv = false
  /\ missing_required argv = []
  /\ opt_unrecognized argv = [].
Proof.
  unfold parse_args, missing_required.
  destruct (opt_help argv); [discriminate |].
  destruct (opt_rpc_url argv); [| discriminate].
  destruct (opt_wallet argv); [| discriminate].
  destruct (opt_unrecognized argv); [auto | discriminate].
Qed.

Lemma main_parsed env argv args w :
  parse_args argv = Return args -> main env argv w = main_args env args w.
Proof.
  intros H. unfold main, bind, run_parse_args, parser_output.
  destruct (parse_args_returns _ _ H) as (-> & -> & ->). rewrite H.
  reflexivity.
Qed.

Lemma main_unparsed env argv e w :
  parse_args argv = Raise e -> main env argv w = (Raise e, parser_output env argv w).
Proof. intros H. unfold main, bind, run_parse_args. rewrite H. reflexivity. Qed.

Lemma script_run env argv w :
  script env argv w =
  match main env argv w with
  | (Return code, w') => (Raise (SystemExit code), w')
  | (Raise e, w') => (Raise e, w')
  end.
Proof. unfold script, bind, raise. destruct (main env argv w) as [[] ?]; auto. Qed.

(** ** Claims on [main] *)

(** C3, as the specification has it: a string without the prefix would
    always be refused.  A valid address behind a space has no prefix, a
    body of 41 characters and a body that is not all hexadecimal, and is
    accepted. *)
Lemma malformed_yet_accepted :
  negb (has_prefix_0x T" 0x0000000000000000000000000000000000000001") = true
  /\ malformed T" 0x0000000000000000000000000000000000000001" = true
  /\ build_calldata T" 0x0000000000000000000000000000000000000001"
     = Return T"0x919ddbf00000000000000000000000000000000000000000000000000000000000000001"
  /\ ~ (forall s, malformed s = true ->
                  exists msg, build_calldata s = Raise (ValueError msg)).
Proof.
  repeat split; try reflexivity.
  intros H.
  destruct (H T" 0x0000000000000000000000000000000000000001" eq_refl)
    as [msg Hmsg].
  discriminate Hmsg.
Qed.

(** C3, amended: for every wallet string that, once the whitespace
    around it is stripped, lacks the [0x] prefix (in either case), or has
    a body whose length is not 40, or has a character in the body that
    is not hexadecimal, [build_calldata] raises [ValueError]; [main]
    prints the message on the error stream and returns 1, the program
    exits with status 1, and [urlopen] is never called. *)
Theorem malformed_wallet_exits_1 env argv args w :
  parse_args argv = Return args ->
  malformed (strip (wallet args)) = true ->
  exists msg,
    build_calldata (wallet args) = Raise (ValueError msg)
    /\ main env argv w
       = (Return 1%Z, with_stderr w ((T"[error] " ++ msg) ++ nl))
    /\ fst (script env argv w) = Raise (SystemExit 1)
    /\ opened (snd (script env argv w)) = opened w.
Proof.
  intros Hp Hm. destruct (malformed_raises _ Hm) as [msg Hmsg].
  exists msg. split; [exact Hmsg |].
  assert (Hmain : main env argv w
                  = (Return 1%Z, with_stderr w ((T"[error] " ++ msg) ++ nl))).
  { rewrite (main_parsed _ _ _ _ Hp). apply main_args_invalid. exact Hmsg. }
  split; [exact Hmain |].
  rewrite script_run, Hmain. split; reflexivity.
Qed.

Lemma malformed_wallet_exits_1_witness :
  exists msg,
    build_calldata T"0x12g4" = Raise (ValueError msg)
    /\ main (mock_env (Return T"{}") [(T"{}", JDict [])])
         (mk_command_line (Some T"https://rpc") (Some T"0x12g4") None false)
         world0
       = (Return 1%Z, with_stderr world0 ((T"[error] " ++ msg) ++ nl))
    /\ fst (script (mock_env (Return T"{}") [(T"{}", JDict [])])
              (mk_command_line (Some T"https://rpc") (Some T"0x12g4") None false)
              world0)
       = Raise (SystemExit 1)
    /\ opened (snd (script (mock_env (Return T"{}") [(T"{}", JDict [])])
                      (mk_command_line (Some T"https://rpc") (Some T"0x12g4")
                         None false)
                      world0))
       = opened world0.
Proof.
  apply (malformed_wallet_exits_1
           (mock_env (Return T"{}") [(T"{}", JDict [])])
           (mk_command_line (Some T"https://rpc") (Some T"0x12g4") None false)
           (mk_namespace T"https://rpc" T"0x12g4" DEFAULT_RESOLVER false)
           world0);
    reflexivity.
Defined.

(** C4: [main] is to return 0 on every completed round trip, an
    [error] member included.  The answer of a server that writes
    [error: null] beside its result completes the round trip; there
    [err.get] of line 116 is called on [None], and [main] ends with
    [AttributeError] instead of returning 0. *)
Theorem completed_round_trip_not_0 :
  transport (endpoint T"null_error") args_one calldata_one = Return null_error
  /\ fst (main (endpoint T"null_error") argv_one world0)
     = Raise (AttributeError T"'NoneType' object has no attribute 'get'")
  /\ fst (main (endpoint T"null_error") argv_one world0) <> Return 0%Z.
Proof. repeat split. discriminate. Qed.

(** C5: after a completed round trip [main] has printed the four echo
    lines and the two lines of the response, followed by one more line,
    [Decoded error data:] with the string, exactly when the response is
    an object whose [error] is an object whose [data] is a string;
    otherwise nothing follows the response. *)
Theorem decoded_error_data_line env argv args w c response :
  parse_args argv = Return args ->
  build_calldata (wallet args) = Return c ->
  transport env args c = Return response ->
  stdout (snd (main env argv w))
  = stdout w ++ echo_lines args c
    ++ [ (nl ++ T"RPC response:") ++ nl;
         json_dumps_indent env 2 response ++ nl ]
    ++ match error_data response with
       | Some d => [ (nl ++ T"Decoded error data: " ++ d) ++ nl ]
       | None => []
       end.
Proof.
  intros Hp Hc Ht.
  rewrite (main_parsed _ _ _ _ Hp), (main_args_valid _ _ _ _ Hc), Ht.
  destruct (report_run env response (sent env args c w)) as (r & -> & _).
  cbn [snd stdout sent]. rewrite <- !app_assoc. reflexivity.
Qed.

Lemma decoded_error_data_line_witness :
  stdout (snd (main (endpoint T"reverted") argv_one world0))
  = stdout world0 ++ echo_lines args_one calldata_one
    ++ [ (nl ++ T"RPC response:") ++ nl;
         json_dumps_indent (endpoint T"reverted") 2 reverted ++ nl ]
    ++ match error_data reverted with
       | Some d => [ (nl ++ T"Decoded error data: " ++ d) ++ nl ]
       | None => []
       end.
Proof.
  apply (decoded_error_data_line (endpoint T"reverted") argv_one args_one
           world0 calldata_one reverted); reflexivity.
Defined.



(** C8: when the body of the response is not JSON, [post_json] raises
    the decoding error of [json.loads]; neither the [HTTPError] nor the
    [URLError] clause of [main] takes it, so it leaves [main] as it is:
    [main] returns no exit code and writes no diagnostic. *)
Theorem malformed_response_propagates env argv args w c text msg :
  parse_args argv = Return args ->
  build_calldata (wallet args) = Return c ->
  urlopen_read env (rpc_request env args c) = Return text ->
  json_loads env text = Malformed msg ->
  fst (post_json env (rpc_url args) (envelope (resolver args) c)
         (insecure args) w)
  = Raise (JSONDecodeError msg)
  /\ main env argv w = (Raise (JSONDecodeError msg), posted env args c w)
  /\ stderr (snd (main env argv w)) = stderr w
  /\ (forall code, fst (main env argv w) <> Return code).
Proof.
  intros Hp Hc Hu Hj.
  assert (Ht : transport env args c = Raise (JSONDecodeError msg)).
  { rewrite transport_eq, Hu, Hj. reflexivity. }
  assert (Hs : sent env args c w = posted env args c w).
  { apply sent_posted.
    exact (proj1 (urlopen_read_answer _ _ _ Hu ltac:(discriminate))). }
  assert (Hm : main env argv w
               = (Raise (JSONDecodeError msg), posted env args c w)).
  { rewrite (main_parsed _ _ _ _ Hp), (main_args_valid _ _ _ _ Hc), Ht, Hs.
    reflexivity. }
  rewrite post_json_run, Ht, Hm. repeat split. discriminate.
Qed.

Lemma malformed_response_propagates_witness :
  fst (post_json (endpoint T"<html>Bad Gateway</html>") (rpc_url args_one)
         (envelope (resolver args_one) calldata_one) (insecure args_one)
         world0)
  = Raise (JSONDecodeError T"Expecting value")
  /\ main (endpoint T"<html>Bad Gateway</html>") argv_one world0
     = (Raise (JSONDecodeError T"Expecting value"),
        posted (endpoint T"<html>Bad Gateway</html>") args_one calldata_one
          world0)
  /\ stderr (snd (main (endpoint T"<html>Bad Gateway</html>") argv_one world0))
     = stderr world0
  /\ (forall code,
        fst (main (endpoint T"<html>Bad Gateway</html>") argv_one world0)
        <> Return code).
Proof.
  apply (malformed_response_propagates (endpoint T"<html>Bad Gateway</html>")
           argv_one args_one world0 calldata_one
           T"<html>Bad Gateway</html>" T"Expecting value");
    reflexivity.
Defined.


Example resolver_empty :
  opened (snd (main (endpoint T"reverted")
                 (mk_command_line (Some T"https://rpc.example")
                    (Some wallet_one) (Some []) true)
                 world0))
  = [ mk_request T"https://rpc.example"
        (json_dumps (endpoint T"reverted")
           (envelope [] calldata_one))
        [(T"Content-Type", T"application/json")] 60
        (Some unverified_context) ].
Proof. reflexivity. Qed.

(** ** Runs of [main] against a mocked transport *)

Example run_result :
  main (mock_env (Return T"ok") [(T"ok", JDict [ (T"jsonrpc", JStr T"2.0");
                                                 (T"id", JInt 1);
                                                 (T"result", JStr T"0x") ])])
    argv_one world0
  = (Return 0%Z,
     mk_world
       (echo_lines args_one calldata_one
        ++ [ (nl ++ T"RPC response:") ++ nl; T"<response>" ++ nl ])
       []
       [ rpc_request (mock_env (Return T"ok") []) args_one calldata_one ]).
Proof. reflexivity. Qed.

Example run_reverted :
  main (endpoint T"reverted") argv_one world0
  = (Return 0%Z,
     mk_world
       (echo_lines args_one calldata_one
        ++ [ (nl ++ T"RPC response:") ++ nl; T"<response>" ++ nl;
             (nl ++ T"Decoded error data: 0xabc123") ++ nl ])
       []
       [ rpc_request (endpoint T"reverted") args_one calldata_one ]).
Proof. reflexivity. Qed.

Example run_http_500 :
  main (mock_env (Raise (HTTPError 500 T"Internal Server Error")) [])
    argv_one world0
  = (Return 1%Z,
     mk_world
       (echo_lines args_one calldata_one)
       [ T"[http error] 500 Internal Server Error" ++ nl ]
       [ rpc_request (mock_env (Return []) []) args_one calldata_one ]).
Proof. reflexivity. Qed.

Example run_connection_refused :
  main (mock_env (Raise (URLError T"[Errno 111] Connection refused")) [])
    argv_one world0
  = (Return 1%Z,
     mk_world
       (echo_lines args_one calldata_one)
       [ T"[network error] [Errno 111] Connection refused" ++ nl ]
       [ rpc_request (mock_env (Return []) []) args_one calldata_one ]).
Proof. reflexivity. Qed.

Example run_missing_wallet :
  main (endpoint T"reverted")
    (mk_command_line (Some T"https://rpc.example") None None false) world0
  = (Raise (SystemExit 2),
     mk_world []
       [ format_usage (endpoint T"reverted");
         T"check_positions_call.py: error: the following arguments are required: --wallet"
         ++ nl ]
       []).
Proof. reflexivity. Qed.

Example run_help :
  main (endpoint T"reverted")
    (mk_command_line_of None None None false true [T"extra"]) world0
  = (Raise (SystemExit 0), mk_world [T"<help>"] [] []).
Proof. reflexivity. Qed.

Example run_unrecognized :
  main (endpoint T"reverted")
    (mk_command_line_of (Some T"https://rpc.example") (Some wallet_one) None
       false false [T"--verbose"; T"1"]) world0
  = (Raise (SystemExit 2),
     mk_world []
       [ format_usage (endpoint T"reverted");
         T"check_positions_call.py: error: unrecognized arguments: --verbose 1"
         ++ nl ]
       []).
Proof. reflexivity. Qed.

Example run_url_without_type :
  main (endpoint T"reverted")
    (mk_command_line (Some T"rpc.example") (Some wallet_one) None false) world0
  = (Raise (ValueError T"unknown url type: 'rpc.example'"),
     mk_world
       (echo_lines
          (mk_namespace T"rpc.example" wallet_one DEFAULT_RESOLVER false)
          calldata_one)
       [] []).
Proof. reflexivity. Qed.

(** ** Further properties of the encoder *)

Lemma lstrip_all_space w : forallb isspace w = true -> lstrip w = [].
Proof.
  intros H. rewrite <- (app_nil_r w), (lstrip_spaces _ _ H). reflexivity.
Qed.

Lemma lstrip_app_text s w :
  forallb isspace s = false -> lstrip (s ++ w) = lstrip s ++ w.
Proof.
  induction s as [| c s IH]; cbn [forallb app lstrip]; [discriminate |].
  destruct (isspace c); cbn [andb]; [exact IH | reflexivity].
Qed.

Lemma strip_surrounded w1 s w2 :
  forallb isspace w1 = true -> forallb isspace w2 = true ->
  strip (w1 ++ s ++ w2) = strip s.
Proof.
  intros H1 H2. unfold strip. rewrite (lstrip_spaces _ _ H1).
  destruct (forallb isspace s) eqn:E.
  - rewrite (lstrip_spaces _ _ E), (lstrip_all_space _ H2),
      (lstrip_all_space _ E).
    reflexivity.
  - rewrite (lstrip_app_text _ _ E). apply rstrip_spaces. exact H2.
Qed.

Lemma strip_blank s : forallb isspace s = true -> strip s = [].
Proof. intros H. unfold strip. rewrite (lstrip_all_space _ H). reflexivity. Qed.

Lemma rjust_body b :
  length b = 40 ->
  rjust 64 "0"%char (lower b) = repeat "0"%char 24 ++ lower b.
Proof. intros H. unfold rjust. rewrite length_lower, H. reflexivity. Qed.

(** What is known of an accepted string. *)
Lemma build_calldata_returns s out :
  build_calldata s = Return out ->
  has_prefix_0x (strip s) = true
  /\ length (body (strip s)) = 40
  /\ forallb is_hex (body (strip s)) = true
  /\ out = POSITIONS_SELECTOR ++ repeat "0"%char 24 ++ lower (body (strip s)).
Proof.
  rewrite build_calldata_spec.
  destruct (has_prefix_0x (strip s)); cbn [negb]; [| discriminate].
  destruct (length (body (strip s)) =? 40)%nat eqn:El; cbn [negb orb];
    [| discriminate].
  destruct (forallb is_hex (body (strip s))); cbn [negb]; [| discriminate].
  apply Nat.eqb_eq in El. rewrite (rjust_body _ El).
  intros [= <-]. auto.
Qed.

Lemma hex_lower_all b :
  forallb is_hex b = true ->
  forallb (fun c => char_in c hex_digits) (lower b) = true.
Proof.
  induction b as [| c b IH]; [reflexivity |].
  cbn [forallb lower map]. fold (lower b). rewrite hex_lower_char.
  intros H. apply andb_true_iff in H as [-> H]. exact (IH H).
Qed.

Lemma lower_prefixed t :
  has_prefix_0x t = true -> lower t = T"0x" ++ lower (body t).
Proof.
  unfold has_prefix_0x, body.
  change (T"0x") with ["0"; "x"]%char. change (T"0X") with ["0"; "X"]%char.
  destruct t as [| a [| b t]]; cbn [startswith]; try discriminate.
  - rewrite andb_false_r. discriminate.
  - rewrite !andb_true_r. intros H. apply orb_true_iff in H.
    assert (Ha : a = "0"%char).
    { destruct H as [H | H]; apply andb_true_iff in H as [H _];
        apply Ascii.eqb_eq in H; auto. }
    assert (Hb : lower_char b = "x"%char).
    { destruct H as [H | H]; apply andb_true_iff in H as [_ H];
        apply Ascii.eqb_eq in H; subst b; reflexivity. }
    subst a. cbn [lower map skipn app]. rewrite Hb. reflexivity.
Qed.

(** X1: [build_calldata] accepts a string exactly when, once stripped,
    it has the [0x] prefix in either case and a body of exactly 40
    hexadecimal characters; the result is then the selector, 24 zeros
    and the body in lower case. *)
Theorem build_calldata_accepts_iff (s out : str) :
  build_calldata s = Return out <->
  malformed (strip s) = false
  /\ out = POSITIONS_SELECTOR ++ repeat "0"%char 24 ++ lower (body (strip s)).
Proof.
  split.
  - intros H. destruct (build_calldata_returns _ _ H) as (Hp & Hl & Hh & ->).
    split; [| reflexivity].
    unfold malformed. rewrite Hp, Hl, Hh. reflexivity.
  - unfold malformed. intros [Hm ->].
    apply orb_false_iff in Hm as [Hm Hh]. apply orb_false_iff in Hm as [Hp Hl].
    apply negb_false_iff in Hp, Hl, Hh.
    rewrite build_calldata_spec, Hp, Hl, Hh. cbn [negb orb].
    apply Nat.eqb_eq in Hl. rewrite (rjust_body _ Hl). reflexivity.
Qed.

(** X2: the two messages tell the two failures apart: the first is
    raised exactly when the stripped string lacks the prefix, the second
    exactly when it has the prefix and a body that is not 40 long or not
    all hexadecimal. *)
Theorem build_calldata_messages (s : str) :
  (build_calldata s = Raise (ValueError T"wallet address must start with 0x")
   <-> has_prefix_0x (strip s) = false)
  /\ (build_calldata s
      = Raise (ValueError T"wallet address must be 40 hex chars (after 0x)")
      <-> has_prefix_0x (strip s) = true
          /\ (length (body (strip s)) <> 40
              \/ forallb is_hex (body (strip s)) = false)).
Proof.
  rewrite build_calldata_spec.
  destruct (has_prefix_0x (strip s)); cbn [negb].
  - destruct (length (body (strip s)) =? 40)%nat eqn:El; cbn [negb orb].
    + apply Nat.eqb_eq in El.
      destruct (forallb is_hex (body (strip s))); cbn [negb].
      * split; split; try discriminate.
        intros [_ [H | H]]; [contradiction | discriminate].
      * split; split; try discriminate; auto.
    + apply Nat.eqb_neq in El. split; split; try discriminate; auto.
  - split; split; try discriminate; auto. intros [H _]. discriminate.
Qed.

(** X3: every calldata [build_calldata] returns, for whatever input it
    accepts, is 74 characters long, starts with the selector, and
    consists after [0x] of lower-case hexadecimal digits only. *)
Theorem calldata_format (s out : str) :
  build_calldata s = Return out ->
  length out = 74
  /\ startswith POSITIONS_SELECTOR out = true
  /\ forallb (fun c => char_in c hex_digits) (skipn 2 out) = true.
Proof.
  intros H. destruct (build_calldata_returns _ _ H) as (_ & Hl & Hh & ->).
  split; [| split].
  - rewrite !length_app, repeat_length, length_lower, Hl. reflexivity.
  - reflexivity.
  - change (skipn 2 (POSITIONS_SELECTOR ++ ?x)) with (T"919ddbf0" ++ x).
    rewrite !forallb_app, (hex_lower_all _ Hh). reflexivity.
Qed.

Lemma calldata_format_witness :
  length calldata_one = 74
  /\ startswith POSITIONS_SELECTOR calldata_one = true
  /\ forallb (fun c => char_in c hex_digits) (skipn 2 calldata_one) = true.
Proof.
  apply (calldata_format ([chr 32] ++ wallet_one) calldata_one). reflexivity.
Defined.

(** X4: the address can be read back from the calldata: [0x] and the
    last 40 characters of the result are the stripped input in lower
    case, so two inputs with the same calldata are the same address. *)
Theorem calldata_round_trip (s out : str) :
  build_calldata s = Return out ->
  T"0x" ++ last_chars 40 out = lower (strip s)
  /\ forall t, build_calldata t = Return out ->
               lower (strip t) = lower (strip s).
Proof.
  intros H. destruct (build_calldata_returns _ _ H) as (Hp & Hl & _ & E).
  assert (D : forall b : str,
             length b = 40 ->
             out = POSITIONS_SELECTOR ++ repeat "0"%char 24 ++ lower b ->
             last_chars 40 out = lower b).
  { intros b Hb ->. unfold last_chars.
    rewrite !length_app, repeat_length, length_lower, Hb. reflexivity. }
  split.
  - rewrite (D _ Hl E), <- (lower_prefixed _ Hp). reflexivity.
  - intros t Ht.
    destruct (build_calldata_returns _ _ Ht) as (Hp' & Hl' & _ & E').
    rewrite (lower_prefixed _ Hp), (lower_prefixed _ Hp').
    rewrite <- (D _ Hl E), <- (D _ Hl' E'). reflexivity.
Qed.

Lemma calldata_round_trip_witness :
  T"0x" ++ last_chars 40
             T"0x919ddbf0000000000000000000000000abcdef0123456789abcdef0123456789abcdef01"
  = lower (strip T"  0XAbCdEf0123456789aBcDeF0123456789AbCdEf01  ")
  /\ forall t,
       build_calldata t
       = Return T"0x919ddbf0000000000000000000000000abcdef0123456789abcdef0123456789abcdef01" ->
       lower (strip t)
       = lower (strip T"  0XAbCdEf0123456789aBcDeF0123456789AbCdEf01  ").
Proof.
  apply (calldata_round_trip
           T"  0XAbCdEf0123456789aBcDeF0123456789AbCdEf01  ").
  reflexivity.
Defined.

(** X5: whitespace around the argument never matters, whether the
    argument is an address or not: the padded string gets the result of
    the bare one, calldata or error. *)
Theorem build_calldata_ignores_padding (w1 s w2 : str) :
  forallb isspace w1 = true ->
  forallb isspace w2 = true ->
  build_calldata (w1 ++ s ++ w2) = build_calldata s.
Proof.
  intros H1 H2.
  rewrite (build_calldata_spec (w1 ++ s ++ w2)), (build_calldata_spec s).
  rewrite (strip_surrounded w1 s w2 H1 H2). reflexivity.
Qed.

Lemma build_calldata_ignores_padding_witness :
  build_calldata ([chr 10; chr 160] ++ T"0x12 34" ++ [chr 9])
  = build_calldata T"0x12 34".
Proof.
  apply (build_calldata_ignores_padding [chr 10; chr 160] T"0x12 34" [chr 9]);
    reflexivity.
Defined.

(** X6: an empty wallet, or one made of whitespace only, is refused with
    the message about the prefix. *)
Theorem blank_wallet_refused (s : str) :
  forallb isspace s = true ->
  build_calldata s = Raise (ValueError T"wallet address must start with 0x").
Proof.
  intros H. rewrite build_calldata_spec, (strip_blank _ H). reflexivity.
Qed.

Lemma blank_wallet_refused_witness :
  build_calldata []
  = Raise (ValueError T"wallet address must start with 0x")
  /\ build_calldata [chr 32; chr 9; chr 10]
     = Raise (ValueError T"wallet address must start with 0x").
Proof.
  split.
  - apply (blank_wallet_refused []). reflexivity.
  - apply (blank_wallet_refused [chr 32; chr 9; chr 10]). reflexivity.
Defined.

(** X7: a calldata is never taken for an address: [build_calldata]
    refuses every string it returns, with the message about the 40
    characters. *)
Theorem calldata_is_no_address (s out : str) :
  build_calldata s = Return out ->
  build_calldata out
  = Raise (ValueError T"wallet address must be 40 hex chars (after 0x)").
Proof.
  intros H. destruct (build_calldata_returns _ _ H) as (_ & Hl & Hh & ->).
  set (b := lower (body (strip s))).
  assert (Hb : length b = 40) by (unfold b; rewrite length_lower; exact Hl).
  assert (Hs : forallb (fun c => negb (isspace c))
                 (POSITIONS_SELECTOR ++ repeat "0"%char 24 ++ b) = true).
  { rewrite !forallb_app. cbn [andb].
    change (forallb (fun c => negb (isspace c)) POSITIONS_SELECTOR) with true.
    change (forallb (fun c => negb (isspace c)) (repeat "0"%char 24))
      with true.
    cbn [andb]. rewrite forallb_forall. intros c Hc.
    pose proof (hex_lower_all _ Hh) as Hall. rewrite forallb_forall in Hall.
    rewrite (hex_not_space c (Hall c Hc)). reflexivity. }
  rewrite build_calldata_spec.
  pose proof (strip_padded [] [] _ eq_refl eq_refl Hs) as E.
  cbn [app] in E. rewrite app_nil_r in E. rewrite E.
  change (has_prefix_0x (POSITIONS_SELECTOR ++ ?x)) with true. cbn [negb].
  change (body (POSITIONS_SELECTOR ++ ?x)) with (T"919ddbf0" ++ x).
  rewrite !length_app, repeat_length, Hb. reflexivity.
Qed.

Lemma calldata_is_no_address_witness :
  build_calldata calldata_one
  = Raise (ValueError T"wallet address must be 40 hex chars (after 0x)").
Proof.
  apply (calldata_is_no_address wallet_one calldata_one). reflexivity.
Defined.

(** ** Further properties of the transport and of [main] *)

Lemma report_outcome env response w :
  (reportable response = true /\ fst (report env response w) = Return 0%Z)
  \/ (reportable response = false
      /\ exists msg,
           fst (report env response w) = Raise (TypeError msg)
           \/ fst (report env response w) = Raise (AttributeError msg)).
Proof.
  unfold report, bind, print, lift, ret.
  destruct response as [| b | z | f | s | l | items];
    cbn [py_contains reportable].
  1-4: right; split; [reflexivity |]; eexists; left; reflexivity.
  - destruct (contains _ s); cbn [py_getitem negb fst];
      [right; split; [reflexivity |]; eexists; left; reflexivity
      | left; split; reflexivity].
  - destruct (existsb _ l); cbn [py_getitem negb fst];
      [right; split; [reflexivity |]; eexists; left; reflexivity
      | left; split; reflexivity].
  - cbn [py_getitem].
    destruct (dict_get _ items) as [err |]; [| left; split; reflexivity].
    destruct err as [| b | z | f | s | l | err]; cbn [py_get fst];
      try (right; split; [reflexivity |]; eexists; right; reflexivity).
    left. split; [reflexivity |].
    destruct (dict_get _ err) as [[| b | z | f | d | l | d] |]; reflexivity.
Qed.

(** Every run of [main] that got its arguments at a glance: the
    result, and what became of the error stream. *)
Lemma main_summary env argv args w :
  parse_args argv = Return args ->
  (fst (main env argv w) = Return 1%Z
   /\ exists line, stderr (snd (main env argv w)) = stderr w ++ [line])
  \/ ((fst (main env argv w) = Return 0%Z
       \/ exists e, fst (main env argv w) = Raise e)
      /\ stderr (snd (main env argv w)) = stderr w).
Proof.
  intros Hp. rewrite (main_parsed _ _ _ _ Hp).
  destruct (build_calldata (wallet args)) as [c | e] eqn:Hc.
  - rewrite (main_args_valid _ _ _ _ Hc).
    destruct (transport env args c) as [response | e].
    + destruct (report_run env response (sent env args c w))
        as (r & -> & Hr & _).
      right. split; [exact Hr | reflexivity].
    + destruct e; cbn [fst snd];
        first [ solve [right; split; [right; eexists; reflexivity
                                     | reflexivity]]
              | left; split; [reflexivity | eexists; reflexivity] ].
  - destruct (build_calldata_raises _ _ Hc) as [msg ->].
    rewrite (main_args_invalid _ _ _ _ Hc).
    left. split; [reflexivity | eexists; reflexivity].
Qed.

(** The results [main] can have. *)
Lemma main_results env argv w :
  fst (main env argv w) = Return 0%Z
  \/ fst (main env argv w) = Return 1%Z
  \/ exists e, fst (main env argv w) = Raise e.
Proof.
  destruct (parse_args argv) as [args | e] eqn:Hp.
  - destruct (main_summary env argv args w Hp) as [[H _] | [[H | H] _]]; auto.
  - rewrite (main_unparsed _ _ _ _ Hp). right. right. eexists. reflexivity.
Qed.


(** X9: when the endpoint answers with an HTTP error, [main] returns 1,
    has printed the four echo lines and nothing else, and writes the one
    line [[http error] code reason] on the error stream; the clause for
    [URLError] does not take it. *)
Theorem main_http_error env argv args w c code reason :
  parse_args argv = Return args ->
  build_calldata (wallet args) = Return c ->
  urlopen_read env (rpc_request env args c) = Raise (HTTPError code reason) ->
  main env argv w
  = (Return 1%Z,
     mk_world
       (stdout w ++ echo_lines args c)
       (stderr w
        ++ [ (T"[http error] " ++ str_of_int code ++ T" " ++ reason) ++ nl ])
       (opened w ++ [rpc_request env args c])).
Proof.
  intros Hp Hc Hu.
  rewrite (main_parsed _ _ _ _ Hp), (main_args_valid _ _ _ _ Hc).
  rewrite transport_eq, Hu.
  rewrite (sent_posted env args c w
             (proj1 (urlopen_read_answer _ _ _ Hu ltac:(discriminate)))).
  reflexivity.
Qed.

Lemma main_http_error_witness :
  main (mock_env (Raise (HTTPError 404 T"Not Found")) []) argv_one world0
  = (Return 1%Z,
     mk_world
       (stdout world0 ++ echo_lines args_one calldata_one)
       (stderr world0
        ++ [ (T"[http error] " ++ str_of_int 404 ++ T" " ++ T"Not Found")
             ++ nl ])
       (opened world0
        ++ [rpc_request (mock_env (Raise (HTTPError 404 T"Not Found")) [])
              args_one calldata_one])).
Proof.
  apply (main_http_error (mock_env (Raise (HTTPError 404 T"Not Found")) [])
           argv_one args_one world0 calldata_one 404%Z T"Not Found");
    reflexivity.
Defined.

(** X10: when the endpoint cannot be reached ([URLError]), [main]
    returns 1, has printed the four echo lines and nothing else, and
    writes the one line [[network error] reason] on the error stream. *)
Theorem main_network_error env argv args w c reason :
  parse_args argv = Return args ->
  build_calldata (wallet args) = Return c ->
  urlopen_read env (rpc_request env args c) = Raise (URLError reason) ->
  main env argv w
  = (Return 1%Z,
     mk_world
       (stdout w ++ echo_lines args c)
       (stderr w ++ [ (T"[network error] " ++ reason) ++ nl ])
       (opened w ++ [rpc_request env args c])).
Proof.
  intros Hp Hc Hu.
  rewrite (main_parsed _ _ _ _ Hp), (main_args_valid _ _ _ _ Hc).
  rewrite transport_eq, Hu.
  rewrite (sent_posted env args c w
             (proj1 (urlopen_read_answer _ _ _ Hu ltac:(discriminate)))).
  reflexivity.
Qed.

Lemma main_network_error_witness :
  main (mock_env (Raise (URLError T"timed out")) []) argv_one world0
  = (Return 1%Z,
     mk_world
       (stdout world0 ++ echo_lines args_one calldata_one)
       (stderr world0 ++ [ (T"[network error] " ++ T"timed out") ++ nl ])
       (opened world0
        ++ [rpc_request (mock_env (Raise (URLError T"timed out")) [])
              args_one calldata_one])).
Proof.
  apply (main_network_error (mock_env (Raise (URLError T"timed out")) [])
           argv_one args_one world0 calldata_one T"timed out");
    reflexivity.
Defined.




(** X12: what [main] does with a response of any shape.  After a
    completed round trip it returns 0 exactly when the response is an
    object whose [error] is absent or an object, a list without the
    string [error], or a string without that word; on every other
    response (a number, [null], a boolean, an [error] that is no object)
    it ends with a [TypeError] or an [AttributeError]. *)
Theorem response_shape env argv args w c response :
  parse_args argv = Return args ->
  build_calldata (wallet args) = Return c ->
  transport env args c = Return response ->
  (fst (main env argv w) = Return 0%Z <-> reportable response = true)
  /\ (reportable response = false ->
      exists msg,
        fst (main env argv w) = Raise (TypeError msg)
        \/ fst (main env argv w) = Raise (AttributeError msg)).
Proof.
  intros Hp Hc Ht.
  rewrite (main_parsed _ _ _ _ Hp), (main_args_valid _ _ _ _ Hc), Ht.
  destruct (report_outcome env response (sent env args c w))
    as [[Hr ->] | (Hr & msg & [-> | ->])]; rewrite Hr.
  - split; [split; reflexivity | discriminate].
  - split; [split; discriminate | eauto].
  - split; [split; discriminate | eauto].
Qed.

Lemma response_shape_witness :
  (fst (main (mock_env (Return T"7") [(T"7", JInt 7)]) argv_one world0)
   = Return 0%Z
   <-> reportable (JInt 7) = true)
  /\ (reportable (JInt 7) = false ->
      exists msg,
        fst (main (mock_env (Return T"7") [(T"7", JInt 7)]) argv_one world0)
        = Raise (TypeError msg)
        \/ fst (main (mock_env (Return T"7") [(T"7", JInt 7)]) argv_one world0)
           = Raise (AttributeError msg)).
Proof.
  apply (response_shape (mock_env (Return T"7") [(T"7", JInt 7)])
           argv_one args_one world0 calldata_one (JInt 7));
    reflexivity.
Defined.

(** X13: once the arguments are parsed, the error stream and the exit
    code go together.  [main] returns 1 exactly when it has written one
    line on the error stream; in every other run it writes nothing
    there; and the only codes it returns are 0 and 1. *)
Theorem diagnostic_iff_exit_1 env argv args w :
  parse_args argv = Return args ->
  (fst (main env argv w) = Return 1%Z <->
   exists line, stderr (snd (main env argv w)) = stderr w ++ [line])
  /\ (fst (main env argv w) <> Return 1%Z ->
      stderr (snd (main env argv w)) = stderr w)
  /\ (forall code, fst (main env argv w) = Return code ->
                   code = 0%Z \/ code = 1%Z).
Proof.
  intros Hp. destruct (main_summary env argv args w Hp) as [[H1 Hl] | [H0 Hs]].
  - split; [split; auto |]. split; [contradiction |].
    intros code Hcode. rewrite H1 in Hcode. injection Hcode as <-. auto.
  - split; [| split].
    + split.
      * intros H. rewrite H in H0. destruct H0 as [H0 | [e H0]]; discriminate.
      * intros [line Hline]. rewrite Hs in Hline.
        apply (f_equal (@length str)) in Hline.
        rewrite length_app in Hline. cbn [length] in Hline. lia.
    + intros _. exact Hs.
    + intros code Hcode. rewrite Hcode in H0.
      destruct H0 as [[= ->] | [e H0]]; [auto | discriminate].
Qed.

Lemma diagnostic_iff_exit_1_witness :
  (fst (main (mock_env (Raise (URLError T"timed out")) []) argv_one world0)
   = Return 1%Z
   <-> exists line,
         stderr (snd (main (mock_env (Raise (URLError T"timed out")) [])
                        argv_one world0))
         = stderr world0 ++ [line])
  /\ (fst (main (mock_env (Raise (URLError T"timed out")) []) argv_one world0)
      <> Return 1%Z ->
      stderr (snd (main (mock_env (Raise (URLError T"timed out")) [])
                     argv_one world0))
      = stderr world0)
  /\ (forall code,
        fst (main (mock_env (Raise (URLError T"timed out")) []) argv_one world0)
        = Return code ->
        code = 0%Z \/ code = 1%Z).
Proof.
  apply (diagnostic_iff_exit_1 (mock_env (Raise (URLError T"timed out")) [])
           argv_one args_one world0).
  reflexivity.
Defined.

(** X14: without [--rpc-url] or without [--wallet], and no call for
    help, the parser writes the usage and an error that names the
    missing options on the error stream and leaves with status 2;
    nothing is printed on the output stream and nothing is sent. *)
Theorem missing_option_exits_2 env argv w :
  opt_help argv = false ->
  opt_rpc_url argv = None \/ opt_wallet argv = None ->
  main env argv w
  = (Raise (SystemExit 2),
     mk_world (stdout w)
       (stderr w
        ++ [ format_usage env;
             prog env ++ T": error: "
             ++ (T"the following arguments are required: "
                 ++ join T", " (missing_required argv))
             ++ nl ])
       (opened w))
  /\ fst (script env argv w) = Raise (SystemExit 2)
  /\ snd (script env argv w) = snd (main env argv w).
Proof.
  intros Hh H.
  assert (Hp : parse_args argv = Raise (SystemExit 2)).
  { unfold parse_args. rewrite Hh. destruct H as [-> | ->]; [reflexivity |].
    destruct (opt_rpc_url argv); reflexivity. }
  assert (Hm : exists x names, missing_required argv = x :: names).
  { unfold missing_required.
    destruct H as [-> | ->]; [eexists; eexists; reflexivity |].
    destruct (opt_rpc_url argv); eexists; eexists; reflexivity. }
  assert (Hmain : main env argv w
                  = (Raise (SystemExit 2), parser_output env argv w)).
  { exact (main_unparsed _ _ _ _ Hp). }
  rewrite script_run, Hmain. split; [| split; reflexivity].
  unfold parser_output, parser_error. rewrite Hh.
  destruct Hm as (x & names & ->). reflexivity.
Qed.

Lemma missing_option_exits_2_witness :
  main (endpoint T"reverted")
    (mk_command_line None (Some wallet_one) (Some DEFAULT_RESOLVER) true)
    world0
  = (Raise (SystemExit 2),
     mk_world (stdout world0)
       (stderr world0
        ++ [ format_usage (endpoint T"reverted");
             prog (endpoint T"reverted") ++ T": error: "
             ++ (T"the following arguments are required: "
                 ++ join T", "
                      (missing_required
                         (mk_command_line None (Some wallet_one)
                            (Some DEFAULT_RESOLVER) true)))
             ++ nl ])
       (opened world0))
  /\ fst (script (endpoint T"reverted")
            (mk_command_line None (Some wallet_one) (Some DEFAULT_RESOLVER) true)
            world0)
     = Raise (SystemExit 2)
  /\ snd (script (endpoint T"reverted")
            (mk_command_line None (Some wallet_one) (Some DEFAULT_RESOLVER) true)
            world0)
     = snd (main (endpoint T"reverted")
              (mk_command_line None (Some wallet_one) (Some DEFAULT_RESOLVER)
                 true)
              world0).
Proof.
  apply (missing_option_exits_2 (endpoint T"reverted")
           (mk_command_line None (Some wallet_one) (Some DEFAULT_RESOLVER) true)
           world0).
  - reflexivity.
  - left. reflexivity.
Defined.



(** X16: the program never ends normally.  It ends with [SystemExit 0]
    or [SystemExit 1] when [main] returned that code, and with the
    exception of [main] otherwise; the last line adds no output. *)
Theorem exit_status env argv w :
  snd (script env argv w) = snd (main env argv w)
  /\ exists e,
       fst (script env argv w) = Raise e
       /\ ((fst (main env argv w) = Return 0%Z /\ e = SystemExit 0)
           \/ (fst (main env argv w) = Return 1%Z /\ e = SystemExit 1)
           \/ fst (main env argv w) = Raise e).
Proof.
  rewrite script_run.
  pose proof (main_results env argv w) as H.
  destruct (main env argv w) as [[code | e] w']; cbn [fst snd] in *.
  - split; [reflexivity |]. exists (SystemExit code). split; [reflexivity |].
    destruct H as [[= ->] | [[= ->] | [e H]]]; auto. discriminate.
  - split; [reflexivity |]. exists e. auto.
Qed.

(** X17: [main] returns 1 in three cases and no other: the wallet is
    refused, the transport raises [HTTPError], or it raises [URLError]. *)
Theorem main_returns_1_iff env argv args w :
  parse_args argv = Return args ->
  (fst (main env argv w) = Return 1%Z <->
   (exists msg, build_calldata (wallet args) = Raise (ValueError msg))
   \/ (exists c code reason,
         build_calldata (wallet args) = Return c
         /\ transport env args c = Raise (HTTPError code reason))
   \/ (exists c reason,
         build_calldata (wallet args) = Return c
         /\ transport env args c = Raise (URLError reason))).
Proof.
  intros Hp. rewrite (main_parsed _ _ _ _ Hp). split.
  - destruct (build_calldata (wallet args)) as [c | e] eqn:Hc.
    + rewrite (main_args_valid _ _ _ _ Hc).
      destruct (transport env args c) as [response | e] eqn:Ht.
      * destruct (report_run env response (sent env args c w))
          as (r & -> & [-> | [e ->]] & _); cbn [fst]; discriminate.
      * destruct e; cbn [fst]; try discriminate; intros _; right; eauto 8.
    + destruct (build_calldata_raises _ _ Hc) as [msg ->]. eauto.
  - intros [[msg Hc] | [(c & code & reason & Hc & Ht)
                       | (c & reason & Hc & Ht)]].
    + rewrite (main_args_invalid _ _ _ _ Hc). reflexivity.
    + rewrite (main_args_valid _ _ _ _ Hc), Ht. reflexivity.
    + rewrite (main_args_valid _ _ _ _ Hc), Ht. reflexivity.
Qed.

Lemma main_returns_1_iff_witness :
  fst (main (mock_env (Raise (HTTPError 500 T"Internal Server Error")) [])
         argv_one world0) = Return 1%Z
  <-> (exists msg, build_calldata (wallet args_one) = Raise (ValueError msg))
      \/ (exists c code reason,
            build_calldata (wallet args_one) = Return c
            /\ transport
                 (mock_env (Raise (HTTPError 500 T"Internal Server Error")) [])
                 args_one c
               = Raise (HTTPError code reason))
      \/ (exists c reason,
            build_calldata (wallet args_one) = Return c
            /\ transport
                 (mock_env (Raise (HTTPError 500 T"Internal Server Error")) [])
                 args_one c
               = Raise (URLError reason)).
Proof.
  apply (main_returns_1_iff
           (mock_env (Raise (HTTPError 500 T"Internal Server Error")) [])
           argv_one args_one world0).
  reflexivity.
Defined.
